(** * adt-domain-poc: the application lifecycle, its reducers and typestates

    A shallow embedding of the event catalog and of the three drafts of the
    repository:
    - the event catalog ([events.ts]),
    - the functional draft with the reducer [apply] and value-returning
      typestate builders (module [Functional]),
    - the reducer draft of [poc-reducer.ts] with [mapNewState] and [reduce]
      (module [PocReducer]),
    - the interface draft with builders that compute the next variant
      directly (module [Interface]).

    JavaScript objects are records; a field that an object may lack is an
    [option]; a property read on [undefined] and a [throw] are the two ways
    a call can end without a value, both carried by [result]. *)

From Stdlib Require Import String List Bool.
Import ListNotations.
Open Scope string_scope.

(** ** Exceptions *)

Inductive JsError : Type :=
| TypeError                  (* property read on [undefined] *)
| Error (message : string).  (* [throw new Error(message)] *)

Inductive result (A : Type) : Type :=
| Ok (a : A)
| Throw (e : JsError).
Arguments Ok {A} a.
Arguments Throw {A} e.

Definition bind {A B : Type} (r : result A) (k : A -> result B) : result B :=
  match r with
  | Ok a => k a
  | Throw e => Throw e
  end.

Notation "x <- r ;; k" := (bind r (fun x => k))
  (at level 61, r at next level, right associativity).

(** [a || b] on two calls: [b] runs only when [a] returned [false]. *)
Definition orElse (a b : result bool) : result bool :=
  x <- a ;; if x then Ok true else b.

Infix "|||" := orElse (at level 50, left associativity).

(** ** common.ts *)

(** Modelled from the spec: [common.ts] is not among the sources.  The enum
    [AppStatus] has the members the code names and the spec lists. *)
Module AppStatus.
Inductive t : Type := New | Active | Deleted | Corrupted.

Definition eqb (a b : t) : bool :=
  match a, b with
  | New, New | Active, Active | Deleted, Deleted | Corrupted, Corrupted => true
  | _, _ => false
  end.

End AppStatus.

(** Modelled from the spec: the members of [InfrastructureProvider], declared
    in [common.ts]. *)
Module InfrastructureProvider.
Inductive t : Type := AWS | AZURE.
End InfrastructureProvider.

(** [enum InfrastructureStatus { NotSelected, Selected }] *)
Module InfrastructureStatus.
Inductive t : Type := NotSelected | Selected.

Definition eqb (a b : t) : bool :=
  match a, b with
  | NotSelected, NotSelected | Selected, Selected => true
  | _, _ => false
  end.

End InfrastructureStatus.

(** Modelled from the spec: [AwsRegion] of [common.ts], a region code. *)
Definition AwsRegion : Type := string.

(** Modelled from the spec: the persisted layout [DbState] of [common.ts]:
    [uuid], [status], [infrastructureStatus] and the optional
    [infrastructureProvider]. *)
Module DbState.
Record t : Type := mk {
  uuid : string;
  status : AppStatus.t;
  infrastructureStatus : InfrastructureStatus.t;
  infrastructureProvider : option InfrastructureProvider.t
}.
End DbState.

(** ** events.ts *)

Record AppCreated : Type :=
  { AppCreated_uuid : string }.

(** The payload is [{uuid} & ({infrastructureProvider: AWS} |
    {infrastructureProvider: AZURE})]: neither arm has a region. *)
Record ExistingInfrastructureSelected : Type :=
  { ExistingInfrastructureSelected_uuid : string;
    ExistingInfrastructureSelected_infrastructureProvider : InfrastructureProvider.t }.

(** The payload is [{uuid} & ({infrastructureProvider: AWS; region} |
    {infrastructureProvider: AZURE})]. *)
Inductive BuildRequested : Type :=
| BuildRequested_AWS (uuid : string) (region : AwsRegion)
| BuildRequested_AZURE (uuid : string).

Record AppActivated : Type :=
  { AppActivated_uuid : string }.

Record AppDeleted : Type :=
  { AppDeleted_uuid : string }.

Inductive AppDomainEvent : Type :=
| EvAppCreated (e : AppCreated)
| EvAppActivated (e : AppActivated)
| EvExistingInfrastructureSelected (e : ExistingInfrastructureSelected)
| EvAppDeleted (e : AppDeleted)
| EvBuildRequested (e : BuildRequested).


(** [event.payload.uuid] *)
Definition payload_uuid (event : AppDomainEvent) : string :=
  match event with
  | EvAppCreated e => AppCreated_uuid e
  | EvAppActivated e => AppActivated_uuid e
  | EvExistingInfrastructureSelected e => ExistingInfrastructureSelected_uuid e
  | EvAppDeleted e => AppDeleted_uuid e
  | EvBuildRequested (BuildRequested_AWS u _) => u
  | EvBuildRequested (BuildRequested_AZURE u) => u
  end.

(** [event.payload.infrastructureProvider], [None] where the payload has no
    such field. *)
Definition payload_infrastructureProvider (event : AppDomainEvent)
  : option InfrastructureProvider.t :=
  match event with
  | EvExistingInfrastructureSelected e =>
      Some (ExistingInfrastructureSelected_infrastructureProvider e)
  | EvBuildRequested (BuildRequested_AWS _ _) => Some InfrastructureProvider.AWS
  | EvBuildRequested (BuildRequested_AZURE _) => Some InfrastructureProvider.AZURE
  | _ => None
  end.

(** [event.payload.region], [None] where the payload has no such field. *)
Definition payload_region (event : AppDomainEvent) : option AwsRegion :=
  match event with
  | EvBuildRequested (BuildRequested_AWS _ r) => Some r
  | _ => None
  end.

(** ** Snapshots

    The state objects of the three drafts have the same fields.
    [infrastructure] is [{status: NotSelected}] or [{status: Selected, type}];
    the [CorruptedState] interface does not declare it, and the object that
    the mapping functions build for a corrupted row does not have it. *)

Inductive Infrastructure : Type :=
| NotSelectedInfrastructure
| SelectedInfrastructure (type : InfrastructureProvider.t).

(** [infrastructure.status] *)
Definition Infrastructure_status (i : Infrastructure) : InfrastructureStatus.t :=
  match i with
  | NotSelectedInfrastructure => InfrastructureStatus.NotSelected
  | SelectedInfrastructure _ => InfrastructureStatus.Selected
  end.

(** [infrastructure.type] *)
Definition Infrastructure_type (i : Infrastructure) : option InfrastructureProvider.t :=
  match i with
  | NotSelectedInfrastructure => None
  | SelectedInfrastructure p => Some p
  end.

Record State : Type := mkState {
  uuid : string;
  status : AppStatus.t;
  infrastructure : option Infrastructure
}.

(** [{ ...state, status: st }] *)
Definition with_status (state : State) (st : AppStatus.t) : State :=
  {| uuid := uuid state; status := st; infrastructure := infrastructure state |}.

(** [{ ...state, infrastructure: i }] *)
Definition with_infrastructure (state : State) (i : Infrastructure) : State :=
  {| uuid := uuid state; status := status state; infrastructure := Some i |}.

(** [app.infrastructure.status]: a [TypeError] when the object has no
    [infrastructure]. *)
Definition infrastructure_status (app : State) : result InfrastructureStatus.t :=
  match infrastructure app with
  | Some i => Ok (Infrastructure_status i)
  | None => Throw TypeError
  end.

(** The three predicates that the functional and the reducer draft share
    word for word. *)
Definition isNewState (app : State) : result bool :=
  if AppStatus.eqb (status app) AppStatus.New
  then s <- infrastructure_status app ;;
       Ok (InfrastructureStatus.eqb s InfrastructureStatus.NotSelected)
  else Ok false.

Definition isNotActivatedState (app : State) : result bool :=
  if AppStatus.eqb (status app) AppStatus.New
  then s <- infrastructure_status app ;;
       Ok (InfrastructureStatus.eqb s InfrastructureStatus.Selected)
  else Ok false.

(** The invariant of the data model. *)
Definition invariant (s : State) : Prop :=
  status s = AppStatus.Active ->
  exists p, infrastructure s = Some (SelectedInfrastructure p).

(** Every state interface but [CorruptedState] declares [infrastructure]. *)
Definition declares_infrastructure (s : State) : Prop :=
  status s = AppStatus.Corrupted \/ infrastructure s <> None.


(** ** Truthiness of an optional provider

    [x && dbState.infrastructureProvider] tests a value that is [undefined]
    or a member of [InfrastructureProvider].  [undefined] is falsy.  Whether
    a member is falsy depends on the values [common.ts] gives the members
    (the first member of a numeric enum is [0]); that file is missing, so the
    truthiness of the members is a parameter of the mapping functions. *)
Definition truthy (member_truthy : InfrastructureProvider.t -> bool)
  (x : option InfrastructureProvider.t) : option InfrastructureProvider.t :=
  match x with
  | Some p => if member_truthy p then Some p else None
  | None => None
  end.

(** [c && x] for a boolean [c] and an optional [x]. *)
Definition guard {A : Type} (c : bool) (x : option A) : option A :=
  if c then x else None.

(** [x && c] for an optional [x] and a boolean [c]. *)
Definition provided {A : Type} (x : option A) (c : bool) : option A :=
  match x with
  | Some a => if c then Some a else None
  | None => None
  end.

(** An object of type [S & DomainEntity<AppDomainEvent>]: the fields of the
    state [S], kept together as [snapshot], and [dispatchedEvents]. *)
Record Entity : Type := mkEntity {
  snapshot : State;
  dispatchedEvents : list AppDomainEvent
}.

(** The corrupted row of the mapping functions:
    [{ uuid: dbState.uuid, status: AppStatus.Corrupted }]. *)
Definition corrupted_row (dbState : DbState.t) : State :=
  {| uuid := DbState.uuid dbState;
     status := AppStatus.Corrupted;
     infrastructure := None |}.

(** [{ uuid: dbState.uuid, status: dbState.status, infrastructure: i }] *)
Definition mapped_row (dbState : DbState.t) (i : Infrastructure) : State :=
  {| uuid := DbState.uuid dbState;
     status := DbState.status dbState;
     infrastructure := Some i |}.

(** A row mapped from the database carries no event. *)
Definition loaded (s : State) : Entity :=
  {| snapshot := s; dispatchedEvents := [] |}.

(** The five typestate variants. *)
Inductive Variant : Type :=
| VNew | VNotActivated | VActive | VDeleted | VCorrupted.

(** ** The functional draft (src/unnamed/part_000) *)
Module Functional.

Definition isActiveState (app : State) : result bool :=
  Ok (AppStatus.eqb (status app) AppStatus.Active).

Definition applyExistingInfrastructureSelected
  (state : State) (event : ExistingInfrastructureSelected) : State :=
  with_infrastructure state
    (SelectedInfrastructure (ExistingInfrastructureSelected_infrastructureProvider event)).

Definition applyAppDeleted (state : State) (event : AppDeleted) : State :=
  with_status state AppStatus.Deleted.

Definition applyAppActivated (state : State) (event : AppActivated) : State :=
  with_status state AppStatus.Active.

(** [throw new Error(`Not implemented`)] *)
Definition checkInvariants (state : State) : result unit :=
  Throw (Error "Not implemented").

Definition apply (state : State) (event : AppDomainEvent) : result State :=
  match event with
  | EvExistingInfrastructureSelected e =>
      b <- isNewState state ;;
      if b then Ok (applyExistingInfrastructureSelected state e)
      else Ok (with_status state AppStatus.Corrupted)
  | EvAppDeleted e =>
      b <- isNotActivatedState state ||| isNewState state ||| isActiveState state ;;
      if b then Ok (applyAppDeleted state e)
      else Ok (with_status state AppStatus.Corrupted)
  | EvAppActivated e =>
      b <- isNotActivatedState state ;;
      if b then Ok (applyAppActivated state e)
      else Ok (with_status state AppStatus.Corrupted)
  | _ => Ok state
  end.

(** The typestate objects: the fields of the entity and the methods that the
    builder closes over its argument. *)
Record Deleted : Type := mkDeleted {
  Deleted_entity : Entity
}.

Record Active : Type := mkActive {
  Active_entity : Entity;
  Active_delete : unit -> result Deleted
}.

Record NotActivated : Type := mkNotActivated {
  NotActivated_entity : Entity;
  NotActivated_activate : unit -> result Active;
  NotActivated_delete : unit -> result Deleted
}.

Record New : Type := mkNew {
  New_entity : Entity;
  New_selectInfrastructure : InfrastructureProvider.t -> result NotActivated;
  New_delete : unit -> result Deleted
}.

Record Corrupted : Type := mkCorrupted {
  Corrupted_entity : Entity
}.

Inductive App : Type :=
| App_New (app : New)
| App_NotActivated (app : NotActivated)
| App_Active (app : Active)
| App_Deleted (app : Deleted)
| App_Corrupted (app : Corrupted).

Definition buildDeleted (state : Entity) : Deleted :=
  {| Deleted_entity := state |}.

Definition buildActive (state : Entity) : Active :=
  {| Active_entity := state;
     Active_delete := fun _ =>
       let event := {| AppDeleted_uuid := uuid (snapshot state) |} in
       let newState := applyAppDeleted (snapshot state) event in
       _ <- checkInvariants newState ;;
       Ok (buildDeleted {| snapshot := newState;
                           dispatchedEvents := [EvAppDeleted event] |}) |}.

Definition buildNotActivated (state : Entity) : NotActivated :=
  {| NotActivated_entity := state;
     NotActivated_activate := fun _ =>
       let event := {| AppActivated_uuid := uuid (snapshot state) |} in
       let newState := applyAppActivated (snapshot state) event in
       _ <- checkInvariants newState ;;
       Ok (buildActive {| snapshot := newState;
                          dispatchedEvents := [EvAppActivated event] |});
     NotActivated_delete := fun _ =>
       let event := {| AppDeleted_uuid := uuid (snapshot state) |} in
       let newState := applyAppDeleted (snapshot state) event in
       _ <- checkInvariants newState ;;
       Ok (buildDeleted {| snapshot := newState;
                           dispatchedEvents := [EvAppDeleted event] |}) |}.

Definition buildNew (state : Entity) : New :=
  {| New_entity := state;
     New_selectInfrastructure := fun type =>
       let event :=
         {| ExistingInfrastructureSelected_uuid := uuid (snapshot state);
            ExistingInfrastructureSelected_infrastructureProvider := type |} in
       let newState := applyExistingInfrastructureSelected (snapshot state) event in
       _ <- checkInvariants newState ;;
       Ok (buildNotActivated
             {| snapshot := newState;
                dispatchedEvents := [EvExistingInfrastructureSelected event] |});
     New_delete := fun _ =>
       let event := {| AppDeleted_uuid := uuid (snapshot state) |} in
       let newState := applyAppDeleted (snapshot state) event in
       _ <- checkInvariants newState ;;
       Ok (buildDeleted {| snapshot := newState;
                           dispatchedEvents := [EvAppDeleted event] |}) |}.

Definition mapDbState (member_truthy : InfrastructureProvider.t -> bool)
  (dbState : DbState.t) : App :=
  let st := DbState.status dbState in
  let ist := DbState.infrastructureStatus dbState in
  let provider := truthy member_truthy (DbState.infrastructureProvider dbState) in
  if AppStatus.eqb st AppStatus.New
     && InfrastructureStatus.eqb ist InfrastructureStatus.NotSelected
  then App_New (buildNew (loaded (mapped_row dbState NotSelectedInfrastructure)))
  else
  match guard (AppStatus.eqb st AppStatus.New
               && InfrastructureStatus.eqb ist InfrastructureStatus.Selected)
              provider with
  | Some p =>
      App_NotActivated
        (buildNotActivated (loaded (mapped_row dbState (SelectedInfrastructure p))))
  | None =>
  match guard (AppStatus.eqb st AppStatus.Active
               && InfrastructureStatus.eqb ist InfrastructureStatus.Selected)
              provider with
  | Some p =>
      App_Active (buildActive (loaded (mapped_row dbState (SelectedInfrastructure p))))
  | None =>
  match
    (if AppStatus.eqb st AppStatus.Deleted then
       match guard (InfrastructureStatus.eqb ist InfrastructureStatus.Selected)
                   provider with
       | Some p =>
           Some (buildDeleted (loaded (mapped_row dbState (SelectedInfrastructure p))))
       | None =>
           if InfrastructureStatus.eqb ist InfrastructureStatus.NotSelected
           then Some (buildDeleted (loaded (mapped_row dbState NotSelectedInfrastructure)))
           else None
       end
     else None)
  with
  | Some app => App_Deleted app
  | None => App_Corrupted {| Corrupted_entity := loaded (corrupted_row dbState) |}
  end end end.

(** Which builder made the object, and the entity fields it spreads. *)
Definition variant (app : App) : Variant :=
  match app with
  | App_New _ => VNew
  | App_NotActivated _ => VNotActivated
  | App_Active _ => VActive
  | App_Deleted _ => VDeleted
  | App_Corrupted _ => VCorrupted
  end.

Definition entity (app : App) : Entity :=
  match app with
  | App_New a => New_entity a
  | App_NotActivated a => NotActivated_entity a
  | App_Active a => Active_entity a
  | App_Deleted a => Deleted_entity a
  | App_Corrupted a => Corrupted_entity a
  end.

(** [isNew(app)] reads the fields that the builders spread into the object. *)
Definition isNew (app : App) : result bool :=
  isNewState (snapshot (entity app)).

(** [throw new Error("Not implemented")] *)
Definition getDbApp : result DbState.t :=
  Throw (Error "Not implemented").

(** [callback(app)], the value of which is dropped. *)
Definition withAppContext (app : App) (callback : App -> result App) : result unit :=
  _ <- callback app ;; Ok tt.

(** The arrow function that [test] hands to [withAppContext].  After the
    guard the methods of the New variant are called on the object; an object
    that passes the guard and has no such method gives a [TypeError]. *)
Definition test_callback (app : App) : result App :=
  b <- isNew app ;;
  if negb b then Throw (Error EmptyString)
  else
    match app with
    | App_New a =>
        notActivated <- New_selectInfrastructure a InfrastructureProvider.AWS ;;
        active <- NotActivated_activate notActivated tt ;;
        deleted <- Active_delete active tt ;;
        Ok (App_Deleted deleted)
    | _ => Throw TypeError
    end.

Definition test (member_truthy : InfrastructureProvider.t -> bool) : result unit :=
  app <- getDbApp ;;
  withAppContext (mapDbState member_truthy app) test_callback.
End Functional.

(** ** The reducer draft (src/src/poc-reducer.ts) *)
Module PocReducer.

Definition isDeletedState (app : State) : result bool :=
  Ok (AppStatus.eqb (status app) AppStatus.Deleted).

Definition isActiveState (app : State) : result bool :=
  if AppStatus.eqb (status app) AppStatus.Active
  then s <- infrastructure_status app ;;
       Ok (InfrastructureStatus.eqb s InfrastructureStatus.Selected)
  else Ok false.

Definition mapNewState (member_truthy : InfrastructureProvider.t -> bool)
  (props : DbState.t) : State :=
  let st := DbState.status props in
  let ist := DbState.infrastructureStatus props in
  let provider := truthy member_truthy (DbState.infrastructureProvider props) in
  if AppStatus.eqb st AppStatus.New
     && InfrastructureStatus.eqb ist InfrastructureStatus.NotSelected
  then mapped_row props NotSelectedInfrastructure
  else
  match guard (AppStatus.eqb st AppStatus.New
               && InfrastructureStatus.eqb ist InfrastructureStatus.Selected)
              provider with
  | Some p => mapped_row props (SelectedInfrastructure p)
  | None =>
  match guard (AppStatus.eqb st AppStatus.Active
               && InfrastructureStatus.eqb ist InfrastructureStatus.Selected)
              provider with
  | Some p => mapped_row props (SelectedInfrastructure p)
  | None =>
  match
    (if AppStatus.eqb st AppStatus.Deleted then
       match provided provider
                      (InfrastructureStatus.eqb ist InfrastructureStatus.Selected) with
       | Some p => Some (mapped_row props (SelectedInfrastructure p))
       | None =>
           if InfrastructureStatus.eqb ist InfrastructureStatus.NotSelected
           then Some (mapped_row props NotSelectedInfrastructure)
           else None
       end
     else None)
  with
  | Some s => s
  | None => corrupted_row props
  end end end.

Definition reduce (state : State) (event : AppDomainEvent) : result State :=
  match event with
  | EvAppCreated e =>
      Ok {| uuid := AppCreated_uuid e;
            status := AppStatus.New;
            infrastructure := Some NotSelectedInfrastructure |}
  | EvExistingInfrastructureSelected e =>
      b <- isNewState state ;;
      if b then
        Ok (with_infrastructure state
              (SelectedInfrastructure
                 (ExistingInfrastructureSelected_infrastructureProvider e)))
      else Ok (with_status state AppStatus.Corrupted)
  | EvAppActivated e =>
      b <- isNotActivatedState state ;;
      if b then Ok (with_status state AppStatus.Active)
      else Ok (with_status state AppStatus.Corrupted)
  | EvAppDeleted e =>
      b <- isDeletedState state ;;
      if b then Ok (with_status state AppStatus.Deleted)
      else Ok (with_status state AppStatus.Corrupted)
  | _ => Ok state
  end.

(** The capability objects.  Their methods return nothing and call
    [dispatch]; [R] is what a call of [dispatch] amounts to. *)
Record NotSelectedInfrastructure (R : Type) : Type := mkNotSelectedInfrastructure {
  selectInfrastructure : InfrastructureProvider.t -> R
}.
Arguments mkNotSelectedInfrastructure {R}.
Arguments selectInfrastructure {R}.

Record NewInterface (R : Type) : Type := mkNewInterface {
  NewInterface_delete : unit -> R;
  NewInterface_infrastructure : NotSelectedInfrastructure R
}.
Arguments mkNewInterface {R}.
Arguments NewInterface_delete {R}.
Arguments NewInterface_infrastructure {R}.

Record NotActivatedInterface (R : Type) : Type := mkNotActivatedInterface {
  NotActivatedInterface_delete : unit -> R;
  NotActivatedInterface_activate : unit -> R
}.
Arguments mkNotActivatedInterface {R}.
Arguments NotActivatedInterface_delete {R}.
Arguments NotActivatedInterface_activate {R}.

Record ActiveInterface (R : Type) : Type := mkActiveInterface {
  ActiveInterface_delete : unit -> R
}.
Arguments mkActiveInterface {R}.
Arguments ActiveInterface_delete {R}.

(** [NewInterface | NotActivatedInterface | ActiveInterface], the result of
    [isNotDeleted]; every member has [delete]. *)
Inductive NotDeletedInterface (R : Type) : Type :=
| NotDeleted_New (i : NewInterface R)
| NotDeleted_NotActivated (i : NotActivatedInterface R)
| NotDeleted_Active (i : ActiveInterface R).
Arguments NotDeleted_New {R}.
Arguments NotDeleted_NotActivated {R}.
Arguments NotDeleted_Active {R}.

Definition NotDeleted_delete {R : Type} (i : NotDeletedInterface R) : unit -> R :=
  match i with
  | NotDeleted_New i => NewInterface_delete i
  | NotDeleted_NotActivated i => NotActivatedInterface_delete i
  | NotDeleted_Active i => ActiveInterface_delete i
  end.

(** The type [Interface] of the source. *)
Record AppInterface (R : Type) : Type := mkAppInterface {
  isNew : unit -> result (NewInterface R);
  isNotActivated : unit -> result (NotActivatedInterface R);
  isActive : unit -> result (ActiveInterface R);
  isNotDeleted : unit -> result (NotDeletedInterface R);
  isDeleted : unit -> result unit
}.
Arguments mkAppInterface {R}.
Arguments isNew {R}.
Arguments isNotActivated {R}.
Arguments isActive {R}.
Arguments isNotDeleted {R}.
Arguments isDeleted {R}.

Definition buildNewInterface {R : Type}
  (state : State) (dispatch : AppDomainEvent -> R) : NewInterface R :=
  {| NewInterface_delete := fun _ =>
       dispatch (EvAppDeleted {| AppDeleted_uuid := uuid state |});
     NewInterface_infrastructure :=
       {| selectInfrastructure := fun type =>
            dispatch
              (EvExistingInfrastructureSelected
                 {| ExistingInfrastructureSelected_uuid := uuid state;
                    ExistingInfrastructureSelected_infrastructureProvider := type |}) |} |}.

Definition buildNotActivatedInterface {R : Type}
  (state : State) (dispatch : AppDomainEvent -> R) : NotActivatedInterface R :=
  {| NotActivatedInterface_delete := fun _ =>
       dispatch (EvAppDeleted {| AppDeleted_uuid := uuid state |});
     NotActivatedInterface_activate := fun _ =>
       dispatch (EvAppActivated {| AppActivated_uuid := uuid state |}) |}.

Definition buildActiveInterface {R : Type}
  (state : State) (dispatch : AppDomainEvent -> R) : ActiveInterface R :=
  {| ActiveInterface_delete := fun _ =>
       dispatch (EvAppDeleted {| AppDeleted_uuid := uuid state |}) |}.

(** [throw new Error()] has the empty message. *)
Definition buildInterface {R : Type}
  (state : State) (dispatch : AppDomainEvent -> R) : AppInterface R :=
  {| isNew := fun _ =>
       b <- isNewState state ;;
       if negb b then Throw (Error EmptyString)
       else Ok (buildNewInterface state dispatch);
     isNotActivated := fun _ =>
       b <- isNotActivatedState state ;;
       if negb b then Throw (Error EmptyString)
       else Ok (buildNotActivatedInterface state dispatch);
     isActive := fun _ =>
       b <- isActiveState state ;;
       if negb b then Throw (Error EmptyString)
       else Ok (buildActiveInterface state dispatch);
     isNotDeleted := fun _ =>
       b1 <- isNewState state ;;
       if b1 then Ok (NotDeleted_New (buildNewInterface state dispatch))
       else
         b2 <- isNotActivatedState state ;;
         if b2 then Ok (NotDeleted_NotActivated (buildNotActivatedInterface state dispatch))
         else
           b3 <- isActiveState state ;;
           if b3 then Ok (NotDeleted_Active (buildActiveInterface state dispatch))
           else Throw (Error EmptyString);
     isDeleted := fun _ => Ok tt |}.

(** The class [Root]: an object with the one mutable field [_state].  A
    method returns the object as the call leaves it. *)
Record Root : Type := mkRoot {
  Root_state : State
}.

(** [new Root(props)] *)
Definition Root_new (member_truthy : InfrastructureProvider.t -> bool)
  (props : DbState.t) : Root :=
  {| Root_state := mapNewState member_truthy props |}.

(** The method [dispatch] with its receiver: [this] is [undefined] when the
    function is called without one, and [this._state] is then a property
    read on [undefined]. *)
Definition Root_dispatch (this : option Root) (event : AppDomainEvent) : result Root :=
  match this with
  | None => Throw TypeError
  | Some r =>
      s <- reduce (Root_state r) event ;;
      Ok {| Root_state := s |}
  end.

(** The three public methods hand [this.dispatch] to [buildInterface] as a
    bare function value: the capabilities call it without a receiver. *)
Definition Root_selectInfrastructure (this : Root) (type : InfrastructureProvider.t)
  : result Root :=
  let appInterface := buildInterface (Root_state this) (Root_dispatch None) in
  i <- isNew appInterface tt ;;
  selectInfrastructure (NewInterface_infrastructure i) type.

Definition Root_activate (this : Root) : result Root :=
  let appInterface := buildInterface (Root_state this) (Root_dispatch None) in
  i <- isNotActivated appInterface tt ;;
  NotActivatedInterface_activate i tt.

Definition Root_delete (this : Root) : result Root :=
  let appInterface := buildInterface (Root_state this) (Root_dispatch None) in
  i <- isNotDeleted appInterface tt ;;
  NotDeleted_delete i tt.

Definition test (member_truthy : InfrastructureProvider.t -> bool)
  (dbState : DbState.t) : result Root :=
  let root := Root_new member_truthy dbState in
  root <- Root_selectInfrastructure root InfrastructureProvider.AWS ;;
  root <- Root_activate root ;;
  Root_delete root.
End PocReducer.

(** ** The interface draft (second document of src/src/poc-reducer.ts) *)
Module Interface.

Record Deleted : Type := mkDeleted {
  Deleted_entity : Entity
}.

Record Active : Type := mkActive {
  Active_entity : Entity;
  Active_delete : unit -> Deleted
}.

Record NotActivated : Type := mkNotActivated {
  NotActivated_entity : Entity;
  NotActivated_activate : unit -> Active;
  NotActivated_delete : unit -> Deleted
}.

Record New : Type := mkNew {
  New_entity : Entity;
  New_selectInfrastructure : InfrastructureProvider.t -> NotActivated;
  New_delete : unit -> Deleted
}.

Record Corrupted : Type := mkCorrupted {
  Corrupted_entity : Entity
}.

Inductive App : Type :=
| App_New (app : New)
| App_NotActivated (app : NotActivated)
| App_Active (app : Active)
| App_Deleted (app : Deleted)
| App_Corrupted (app : Corrupted).

Definition buildDeleted (state : Entity) : Deleted :=
  {| Deleted_entity := state |}.

Definition buildActive (state : Entity) : Active :=
  {| Active_entity := state;
     Active_delete := fun _ =>
       buildDeleted
         {| snapshot := with_status (snapshot state) AppStatus.Deleted;
            dispatchedEvents :=
              [EvAppDeleted {| AppDeleted_uuid := uuid (snapshot state) |}] |} |}.

Definition buildNotActivated (state : Entity) : NotActivated :=
  {| NotActivated_entity := state;
     NotActivated_activate := fun _ =>
       buildActive
         {| snapshot := with_status (snapshot state) AppStatus.Active;
            dispatchedEvents :=
              [EvAppActivated {| AppActivated_uuid := uuid (snapshot state) |}] |};
     NotActivated_delete := fun _ =>
       buildDeleted
         {| snapshot := with_status (snapshot state) AppStatus.Deleted;
            dispatchedEvents :=
              [EvAppDeleted {| AppDeleted_uuid := uuid (snapshot state) |}] |} |}.

Definition buildNew (state : Entity) : New :=
  {| New_entity := state;
     New_selectInfrastructure := fun type =>
       buildNotActivated
         {| snapshot := with_infrastructure (snapshot state) (SelectedInfrastructure type);
            dispatchedEvents :=
              [EvExistingInfrastructureSelected
                 {| ExistingInfrastructureSelected_uuid := uuid (snapshot state);
                    ExistingInfrastructureSelected_infrastructureProvider := type |}] |};
     New_delete := fun _ =>
       buildDeleted
         {| snapshot := with_status (snapshot state) AppStatus.Deleted;
            dispatchedEvents :=
              [EvAppDeleted {| AppDeleted_uuid := uuid (snapshot state) |}] |} |}.

Definition mapDbState (member_truthy : InfrastructureProvider.t -> bool)
  (dbState : DbState.t) : App :=
  let st := DbState.status dbState in
  let ist := DbState.infrastructureStatus dbState in
  let provider := truthy member_truthy (DbState.infrastructureProvider dbState) in
  if AppStatus.eqb st AppStatus.New
     && InfrastructureStatus.eqb ist InfrastructureStatus.NotSelected
  then App_New (buildNew (loaded (mapped_row dbState NotSelectedInfrastructure)))
  else
  match guard (AppStatus.eqb st AppStatus.New
               && InfrastructureStatus.eqb ist InfrastructureStatus.Selected)
              provider with
  | Some p =>
      App_NotActivated
        (buildNotActivated (loaded (mapped_row dbState (SelectedInfrastructure p))))
  | None =>
  match guard (AppStatus.eqb st AppStatus.Active
               && InfrastructureStatus.eqb ist InfrastructureStatus.Selected)
              provider with
  | Some p =>
      App_Active (buildActive (loaded (mapped_row dbState (SelectedInfrastructure p))))
  | None =>
  match
    (if AppStatus.eqb st AppStatus.Deleted then
       match guard (InfrastructureStatus.eqb ist InfrastructureStatus.Selected)
                   provider with
       | Some p =>
           Some (buildDeleted (loaded (mapped_row dbState (SelectedInfrastructure p))))
       | None =>
           if InfrastructureStatus.eqb ist InfrastructureStatus.NotSelected
           then Some (buildDeleted (loaded (mapped_row dbState NotSelectedInfrastructure)))
           else None
       end
     else None)
  with
  | Some app => App_Deleted app
  | None => App_Corrupted {| Corrupted_entity := loaded (corrupted_row dbState) |}
  end end end.

(** Which builder made the object, and the entity fields it spreads. *)
Definition variant (app : App) : Variant :=
  match app with
  | App_New _ => VNew
  | App_NotActivated _ => VNotActivated
  | App_Active _ => VActive
  | App_Deleted _ => VDeleted
  | App_Corrupted _ => VCorrupted
  end.

Definition entity (app : App) : Entity :=
  match app with
  | App_New a => New_entity a
  | App_NotActivated a => NotActivated_entity a
  | App_Active a => Active_entity a
  | App_Deleted a => Deleted_entity a
  | App_Corrupted a => Corrupted_entity a
  end.

(** [isNew(app)] reads the fields that the builders spread into the object. *)
Definition isNew (app : App) : result bool :=
  isNewState (snapshot (entity app)).

(** [throw new Error("Not implemented")] *)
Definition getDbApp : result DbState.t :=
  Throw (Error "Not implemented").

(** [callback(app)], the value of which is dropped. *)
Definition withAppContext (app : App) (callback : App -> result App) : result unit :=
  _ <- callback app ;; Ok tt.

(** The arrow function that [test] hands to [withAppContext]. *)
Definition test_callback (app : App) : result App :=
  b <- isNew app ;;
  if negb b then Throw (Error EmptyString)
  else
    match app with
    | App_New a =>
        let notActivated := New_selectInfrastructure a InfrastructureProvider.AWS in
        let active := NotActivated_activate notActivated tt in
        let deleted := Active_delete active tt in
        Ok (App_Deleted deleted)
    | _ => Throw TypeError
    end.

Definition test (member_truthy : InfrastructureProvider.t -> bool) : result unit :=
  app <- getDbApp ;;
  withAppContext (mapDbState member_truthy app) test_callback.
End Interface.

(** ** Notions of the specification *)

(** The member of the union [State] that a state object inhabits. *)
Definition State_variant (s : State) : Variant :=
  match status s, infrastructure s with
  | AppStatus.New, Some NotSelectedInfrastructure => VNew
  | AppStatus.New, Some (SelectedInfrastructure _) => VNotActivated
  | AppStatus.Active, Some (SelectedInfrastructure _) => VActive
  | AppStatus.Deleted, Some _ => VDeleted
  | _, _ => VCorrupted
  end.

(** The five rules of the reconstruction table, in the words of the
    specification: a row whose infrastructure is [Selected] names its
    provider. *)
Definition fromPersisted_spec (d : DbState.t) : Variant :=
  match DbState.status d, DbState.infrastructureStatus d with
  | AppStatus.New, InfrastructureStatus.NotSelected => VNew
  | AppStatus.New, InfrastructureStatus.Selected => VNotActivated
  | AppStatus.Active, InfrastructureStatus.Selected => VActive
  | AppStatus.Deleted, _ => VDeleted
  | _, _ => VCorrupted
  end.


(** The snapshot that [AppCreated] stands for. *)
Definition created (u : string) : State :=
  {| uuid := u; status := AppStatus.New;
     infrastructure := Some NotSelectedInfrastructure |}.

(** The snapshots that a history of events leads to under [apply]. *)
Inductive reachable : State -> Prop :=
| reachable_created (u : string) : reachable (created u)
| reachable_apply (s s' : State) (e : AppDomainEvent) :
    reachable s -> Functional.apply s e = Ok s' -> reachable s'.



(** What the three mapping functions make of a row: the two typestate drafts
    build the variant [v] around the snapshot [s] with no event, and the
    reducer draft returns [s]. *)
Definition reconstructs (member_truthy : InfrastructureProvider.t -> bool)
  (d : DbState.t) (v : Variant) (s : State) : Prop :=
  Functional.variant (Functional.mapDbState member_truthy d) = v
  /\ Functional.entity (Functional.mapDbState member_truthy d)
     = {| snapshot := s; dispatchedEvents := [] |}
  /\ Interface.variant (Interface.mapDbState member_truthy d) = v
  /\ Interface.entity (Interface.mapDbState member_truthy d)
     = {| snapshot := s; dispatchedEvents := [] |}
  /\ PocReducer.mapNewState member_truthy d = s.

(** The order in which a lifecycle passes through the statuses. *)
Definition AppStatus_rank (st : AppStatus.t) : nat :=
  match st with
  | AppStatus.New => 0
  | AppStatus.Active => 1
  | AppStatus.Deleted => 2
  | AppStatus.Corrupted => 3
  end.

(** The entity [after] carries one event, and [apply] takes [before] to the
    snapshot of [after] on that event. *)
Definition replays (before : State) (after : Entity) : Prop :=
  exists ev,
    dispatchedEvents after = [ev]
    /\ payload_uuid ev = uuid before
    /\ Functional.apply before ev = Ok (snapshot after).

(** ** Facts about the snapshots *)

Lemma AppStatus_eqb_spec (a b : AppStatus.t) :
  reflect (a = b) (AppStatus.eqb a b).
Proof. destruct a, b; constructor; congruence. Qed.

Lemma InfrastructureStatus_eqb_spec (a b : InfrastructureStatus.t) :
  reflect (a = b) (InfrastructureStatus.eqb a b).
Proof. destruct a, b; constructor; congruence. Qed.

(** Case analysis on the three fields that the predicates read. *)
Ltac by_fields s :=
  let u := fresh "u" in
  let p := fresh "p" in
  destruct s as [u [] [[|p]|]]; cbn in *.

(** Discharge a shape hypothesis that the case at hand contradicts. *)
Ltac absurd_shape :=
  match goal with
  | H : declares_infrastructure _ |- _ =>
      destruct H as [H | H]; cbn in H; congruence
  | H : ~ (_ /\ _) |- _ => exfalso; apply H; split; reflexivity
  | H : _ \/ _ |- _ => destruct H; discriminate
  end.

Lemma isNewState_declared (s : State) :
  declares_infrastructure s ->
  isNewState s
  = Ok (match status s, infrastructure s with
        | AppStatus.New, Some NotSelectedInfrastructure => true
        | _, _ => false
        end).
Proof. intros H. by_fields s; try reflexivity. absurd_shape. Qed.


(** ** The reducers, event by event *)

(** The functional draft's [apply] deletes a [New] or [Active] snapshot and
    corrupts a [Deleted] one. *)
Lemma apply_AppDeleted (s : State) (e : AppDeleted) :
  declares_infrastructure s ->
  (status s = AppStatus.New \/ status s = AppStatus.Active ->
   Functional.apply s (EvAppDeleted e) = Ok (with_status s AppStatus.Deleted))
  /\ (status s = AppStatus.Deleted ->
      Functional.apply s (EvAppDeleted e) = Ok (with_status s AppStatus.Corrupted)).
Proof.
  intros H; split; intros Hs; by_fields s;
    try reflexivity; try discriminate; absurd_shape.
Qed.

(** C1: in the reducer draft the guard of [AppDeleted] is [isDeletedState]
    itself, not its negation: [reduce] corrupts every snapshot that is not
    [Deleted] (so a [New] or [Active] one) and leaves a [Deleted] one
    [Deleted]; the infrastructure and the uuid are kept in both cases. *)
Theorem reduce_AppDeleted_inverted (s : State) (e : AppDeleted) :
  PocReducer.reduce s (EvAppDeleted e)
  = Ok (with_status s
          (if AppStatus.eqb (status s) AppStatus.Deleted
           then AppStatus.Deleted else AppStatus.Corrupted)).
Proof. destruct s as [u [] i]; reflexivity. Qed.

(** The same at the three statuses of the claim. *)
Example reduce_AppDeleted_on_New :
  PocReducer.reduce (created "u1") (EvAppDeleted {| AppDeleted_uuid := "u1" |})
  = Ok {| uuid := "u1"; status := AppStatus.Corrupted;
          infrastructure := Some NotSelectedInfrastructure |}.
Proof. reflexivity. Qed.

Example reduce_AppDeleted_on_Active :
  PocReducer.reduce
    {| uuid := "u1"; status := AppStatus.Active;
       infrastructure := Some (SelectedInfrastructure InfrastructureProvider.AWS) |}
    (EvAppDeleted {| AppDeleted_uuid := "u1" |})
  = Ok {| uuid := "u1"; status := AppStatus.Corrupted;
          infrastructure := Some (SelectedInfrastructure InfrastructureProvider.AWS) |}.
Proof. reflexivity. Qed.

Example reduce_AppDeleted_on_Deleted :
  PocReducer.reduce
    {| uuid := "u1"; status := AppStatus.Deleted;
       infrastructure := Some NotSelectedInfrastructure |}
    (EvAppDeleted {| AppDeleted_uuid := "u1" |})
  = Ok {| uuid := "u1"; status := AppStatus.Deleted;
          infrastructure := Some NotSelectedInfrastructure |}.
Proof. reflexivity. Qed.

(** C2: on a snapshot that is [New] with infrastructure [NotSelected],
    [ExistingInfrastructureSelected] returns the snapshot with the same uuid,
    status [New] and the infrastructure Selected with the provider of the
    event; on every other snapshot it returns the snapshot with the same uuid
    and the same infrastructure and status [Corrupted].  Both reducers
    agree. *)
Theorem ExistingInfrastructureSelected_applied
  (s : State) (e : ExistingInfrastructureSelected) :
  declares_infrastructure s ->
  (status s = AppStatus.New /\ infrastructure s = Some NotSelectedInfrastructure ->
   let s' :=
     {| uuid := uuid s;
        status := AppStatus.New;
        infrastructure :=
          Some (SelectedInfrastructure
                  (ExistingInfrastructureSelected_infrastructureProvider e)) |} in
   Functional.apply s (EvExistingInfrastructureSelected e) = Ok s'
   /\ PocReducer.reduce s (EvExistingInfrastructureSelected e) = Ok s')
  /\ (~ (status s = AppStatus.New
         /\ infrastructure s = Some NotSelectedInfrastructure) ->
      let s' :=
        {| uuid := uuid s;
           status := AppStatus.Corrupted;
           infrastructure := infrastructure s |} in
      Functional.apply s (EvExistingInfrastructureSelected e) = Ok s'
      /\ PocReducer.reduce s (EvExistingInfrastructureSelected e) = Ok s').
Proof.
  intros H; split; intros Hs; cbn zeta;
    unfold Functional.apply, PocReducer.reduce;
    rewrite (isNewState_declared s H).
  - destruct s as [u st i]; cbn in Hs; destruct Hs as [-> ->].
    split; reflexivity.
  - by_fields s; try (split; reflexivity). absurd_shape.
Qed.

Lemma ExistingInfrastructureSelected_applied_witness :
  Functional.apply (created "u1")
    (EvExistingInfrastructureSelected
       {| ExistingInfrastructureSelected_uuid := "u1";
          ExistingInfrastructureSelected_infrastructureProvider :=
            InfrastructureProvider.AWS |})
  = Ok {| uuid := "u1"; status := AppStatus.New;
          infrastructure := Some (SelectedInfrastructure InfrastructureProvider.AWS) |}
  /\ Functional.apply
       {| uuid := "u1"; status := AppStatus.Active;
          infrastructure := Some (SelectedInfrastructure InfrastructureProvider.AZURE) |}
       (EvExistingInfrastructureSelected
          {| ExistingInfrastructureSelected_uuid := "u1";
             ExistingInfrastructureSelected_infrastructureProvider :=
               InfrastructureProvider.AWS |})
     = Ok {| uuid := "u1"; status := AppStatus.Corrupted;
             infrastructure :=
               Some (SelectedInfrastructure InfrastructureProvider.AZURE) |}
  /\ PocReducer.reduce
       {| uuid := "u1"; status := AppStatus.Deleted;
          infrastructure := Some NotSelectedInfrastructure |}
       (EvExistingInfrastructureSelected
          {| ExistingInfrastructureSelected_uuid := "u1";
             ExistingInfrastructureSelected_infrastructureProvider :=
               InfrastructureProvider.AWS |})
     = Ok {| uuid := "u1"; status := AppStatus.Corrupted;
             infrastructure := Some NotSelectedInfrastructure |}.
Proof.
  split; [| split].
  - refine (proj1 (proj1 (ExistingInfrastructureSelected_applied
                            (created "u1") _ _) _)).
    + right. discriminate.
    + split; reflexivity.
  - refine (proj1 (proj2 (ExistingInfrastructureSelected_applied
              {| uuid := "u1"; status := AppStatus.Active;
                 infrastructure :=
                   Some (SelectedInfrastructure InfrastructureProvider.AZURE) |}
              _ _) _)).
    + right. discriminate.
    + intros [H _]. discriminate H.
  - refine (proj2 (proj2 (ExistingInfrastructureSelected_applied
              {| uuid := "u1"; status := AppStatus.Deleted;
                 infrastructure := Some NotSelectedInfrastructure |}
              _ _) _)).
    + right. discriminate.
    + intros [H _]. discriminate H.
Defined.

(** Scenario 4: an [Active] snapshot on AZURE, asked to select AWS, keeps
    its infrastructure and becomes [Corrupted]. *)
Example scenario_4 :
  Functional.apply
    {| uuid := "u1"; status := AppStatus.Active;
       infrastructure := Some (SelectedInfrastructure InfrastructureProvider.AZURE) |}
    (EvExistingInfrastructureSelected
       {| ExistingInfrastructureSelected_uuid := "u1";
          ExistingInfrastructureSelected_infrastructureProvider :=
            InfrastructureProvider.AWS |})
  = Ok {| uuid := "u1"; status := AppStatus.Corrupted;
          infrastructure :=
            Some (SelectedInfrastructure InfrastructureProvider.AZURE) |}.
Proof. reflexivity. Qed.

(** Scenario 6: [apply] corrupts a snapshot that is deleted twice. *)
Example scenario_6 :
  Functional.apply
    {| uuid := "u1"; status := AppStatus.Deleted;
       infrastructure := Some NotSelectedInfrastructure |}
    (EvAppDeleted {| AppDeleted_uuid := "u1" |})
  = Ok {| uuid := "u1"; status := AppStatus.Corrupted;
          infrastructure := Some NotSelectedInfrastructure |}.
Proof. reflexivity. Qed.

(** A [New] object without [infrastructure] is not a value of the state
    type; on it the guards read a property of [undefined]. *)
Example apply_without_infrastructure :
  Functional.apply
    {| uuid := "u1"; status := AppStatus.New; infrastructure := None |}
    (EvAppDeleted {| AppDeleted_uuid := "u1" |})
  = Throw TypeError.
Proof. reflexivity. Qed.



(** C4, as the code has it: [apply] has no case for [AppCreated] nor for
    [BuildRequested] and returns the snapshot it was given; [reduce] does the
    same for [BuildRequested], but its case for [AppCreated] drops the
    snapshot and returns the created one under the uuid of the event. *)
Theorem AppCreated_BuildRequested_applied (s : State) :
  (forall e, Functional.apply s (EvAppCreated e) = Ok s)
  /\ (forall e, Functional.apply s (EvBuildRequested e) = Ok s)
  /\ (forall e, PocReducer.reduce s (EvBuildRequested e) = Ok s)
  /\ (forall e, PocReducer.reduce s (EvAppCreated e) = Ok (created (AppCreated_uuid e))).
Proof. repeat split. Qed.

(** C4, as the claim has it, fails on [reduce]: [AppCreated] does not return
    an [Active] snapshot unchanged. *)
Lemma reduce_AppCreated_changes_snapshot :
  PocReducer.reduce
    {| uuid := "u1"; status := AppStatus.Active;
       infrastructure := Some (SelectedInfrastructure InfrastructureProvider.AZURE) |}
    (EvAppCreated {| AppCreated_uuid := "u1" |})
  = Ok {| uuid := "u1"; status := AppStatus.New;
          infrastructure := Some NotSelectedInfrastructure |}
  /\ PocReducer.reduce
       {| uuid := "u1"; status := AppStatus.Active;
          infrastructure := Some (SelectedInfrastructure InfrastructureProvider.AZURE) |}
       (EvAppCreated {| AppCreated_uuid := "u1" |})
     <> Ok {| uuid := "u1"; status := AppStatus.Active;
              infrastructure :=
                Some (SelectedInfrastructure InfrastructureProvider.AZURE) |}.
Proof. split; [reflexivity | discriminate]. Qed.

(** C10, as the code has it: [apply] returns a [Corrupted] snapshot as it
    is, whatever the event; so does [reduce] for every event but
    [AppCreated], which replaces it by the created snapshot, of status
    [New]. *)
Theorem Corrupted_absorbing (s : State) (e : AppDomainEvent) :
  status s = AppStatus.Corrupted ->
  Functional.apply s e = Ok s
  /\ ((forall c, e <> EvAppCreated c) -> PocReducer.reduce s e = Ok s)
  /\ (forall c, e = EvAppCreated c ->
        PocReducer.reduce s e = Ok (created (AppCreated_uuid c))).
Proof.
  intros Hs. destruct s as [u st i]; cbn in Hs; subst st.
  repeat split.
  - destruct e; reflexivity.
  - intros Hc. destruct e as [c| | | |]; try reflexivity.
    now destruct (Hc c).
  - intros c ->. reflexivity.
Qed.

Lemma Corrupted_absorbing_witness :
  Functional.apply
    {| uuid := "u1"; status := AppStatus.Corrupted; infrastructure := None |}
    (EvAppDeleted {| AppDeleted_uuid := "u1" |})
  = Ok {| uuid := "u1"; status := AppStatus.Corrupted; infrastructure := None |}.
Proof.
  refine (proj1 (Corrupted_absorbing _ _ _)). reflexivity.
Defined.

(** C10, as the claim has it, fails on [reduce]: [AppCreated] takes a
    [Corrupted] snapshot to a [New] one. *)
Lemma reduce_AppCreated_leaves_Corrupted :
  status {| uuid := "u1"; status := AppStatus.Corrupted; infrastructure := None |}
  = AppStatus.Corrupted
  /\ PocReducer.reduce
       {| uuid := "u1"; status := AppStatus.Corrupted; infrastructure := None |}
       (EvAppCreated {| AppCreated_uuid := "u1" |})
     = Ok {| uuid := "u1"; status := AppStatus.New;
             infrastructure := Some NotSelectedInfrastructure |}.
Proof. split; reflexivity. Qed.

(** ** The typestate operations *)

(** C6: in the functional draft [checkInvariants] is a stub that throws, and
    every operation calls it before it builds its result: none of the five
    operations returns a variant.  The state it is called on is not read. *)
Theorem Functional_operations_throw (state : Entity) (type : InfrastructureProvider.t) :
  Functional.New_selectInfrastructure (Functional.buildNew state) type
  = Throw (Error "Not implemented")
  /\ Functional.New_delete (Functional.buildNew state) tt
     = Throw (Error "Not implemented")
  /\ Functional.NotActivated_activate (Functional.buildNotActivated state) tt
     = Throw (Error "Not implemented")
  /\ Functional.NotActivated_delete (Functional.buildNotActivated state) tt
     = Throw (Error "Not implemented")
  /\ Functional.Active_delete (Functional.buildActive state) tt
     = Throw (Error "Not implemented").
Proof. repeat split. Qed.

Example Functional_selectInfrastructure_throws :
  Functional.New_selectInfrastructure
    (Functional.buildNew (loaded (created "u1"))) InfrastructureProvider.AWS
  = Throw (Error "Not implemented").
Proof. reflexivity. Qed.

(** The interface draft has no such call: each operation returns the next
    variant with the next snapshot and the one event of the transition. *)
Lemma Interface_operations_emit_one_event
  (state : Entity) (type : InfrastructureProvider.t) :
  let s := snapshot state in
  Interface.NotActivated_entity
    (Interface.New_selectInfrastructure (Interface.buildNew state) type)
  = {| snapshot := with_infrastructure s (SelectedInfrastructure type);
       dispatchedEvents :=
         [EvExistingInfrastructureSelected
            {| ExistingInfrastructureSelected_uuid := uuid s;
               ExistingInfrastructureSelected_infrastructureProvider := type |}] |}
  /\ Interface.Deleted_entity (Interface.New_delete (Interface.buildNew state) tt)
     = {| snapshot := with_status s AppStatus.Deleted;
          dispatchedEvents := [EvAppDeleted {| AppDeleted_uuid := uuid s |}] |}
  /\ Interface.Active_entity
       (Interface.NotActivated_activate (Interface.buildNotActivated state) tt)
     = {| snapshot := with_status s AppStatus.Active;
          dispatchedEvents := [EvAppActivated {| AppActivated_uuid := uuid s |}] |}
  /\ Interface.Deleted_entity
       (Interface.NotActivated_delete (Interface.buildNotActivated state) tt)
     = {| snapshot := with_status s AppStatus.Deleted;
          dispatchedEvents := [EvAppDeleted {| AppDeleted_uuid := uuid s |}] |}
  /\ Interface.Deleted_entity (Interface.Active_delete (Interface.buildActive state) tt)
     = {| snapshot := with_status s AppStatus.Deleted;
          dispatchedEvents := [EvAppDeleted {| AppDeleted_uuid := uuid s |}] |}.
Proof. repeat split. Qed.

(** A variant mapped from a row carries no event, in either draft. *)
Lemma mapDbState_no_event
  (member_truthy : InfrastructureProvider.t -> bool) (d : DbState.t) :
  dispatchedEvents (Functional.entity (Functional.mapDbState member_truthy d)) = []
  /\ dispatchedEvents (Interface.entity (Interface.mapDbState member_truthy d)) = [].
Proof.
  destruct d as [u [] [] [p|]]; cbn; try destruct (member_truthy p);
    split; reflexivity.
Qed.

(** ** The payloads *)

(** C7, as the code has it: both payloads carry the provider; the payload of
    [BuildRequested] carries a region exactly when the provider is AWS; the
    payload of [ExistingInfrastructureSelected] carries no region for either
    provider.  Correspondingly [selectInfrastructure] takes the provider as
    its only argument, for AWS as for AZURE: in each of the three drafts the
    call with the provider alone is a whole call, and the selection it
    builds, where it hands one on, names that provider and has no region. *)
Theorem payload_provider_and_region :
  (forall e : ExistingInfrastructureSelected,
     payload_infrastructureProvider (EvExistingInfrastructureSelected e)
     = Some (ExistingInfrastructureSelected_infrastructureProvider e)
     /\ payload_region (EvExistingInfrastructureSelected e) = None)
  /\ (forall e : BuildRequested,
        exists p, payload_infrastructureProvider (EvBuildRequested e) = Some p
                  /\ (p = InfrastructureProvider.AWS
                      <-> payload_region (EvBuildRequested e) <> None))
  /\ (forall (state : Entity) (type : InfrastructureProvider.t),
        Functional.New_selectInfrastructure (Functional.buildNew state) type
        = Throw (Error "Not implemented")
        /\ dispatchedEvents
             (Interface.NotActivated_entity
                (Interface.New_selectInfrastructure (Interface.buildNew state) type))
           = [EvExistingInfrastructureSelected
                {| ExistingInfrastructureSelected_uuid := uuid (snapshot state);
                   ExistingInfrastructureSelected_infrastructureProvider := type |}]
        /\ PocReducer.selectInfrastructure
             (PocReducer.NewInterface_infrastructure
                (PocReducer.buildNewInterface (snapshot state)
                   (fun event : AppDomainEvent => event))) type
           = EvExistingInfrastructureSelected
               {| ExistingInfrastructureSelected_uuid := uuid (snapshot state);
                  ExistingInfrastructureSelected_infrastructureProvider := type |}).
Proof.
  repeat split.
  intros [u r | u]; eexists; (split; [reflexivity |]); split;
    intros H; try discriminate; try reflexivity; now destruct H.
Qed.

Lemma payload_provider_and_region_witness :
  payload_region (EvBuildRequested (BuildRequested_AWS "u1" "us-east-1")) <> None.
Proof.
  destruct (proj1 (proj2 payload_provider_and_region)
              (BuildRequested_AWS "u1" "us-east-1")) as [p [Hp [H _]]].
  apply H. cbn in Hp. congruence.
Defined.

(** C7, as the claim has it, fails: the event that [selectInfrastructure]
    emits for AWS names the provider and carries no region. *)
Lemma ExistingInfrastructureSelected_AWS_without_region :
  dispatchedEvents
    (Interface.NotActivated_entity
       (Interface.New_selectInfrastructure
          (Interface.buildNew (loaded (created "u1"))) InfrastructureProvider.AWS))
  = [EvExistingInfrastructureSelected
       {| ExistingInfrastructureSelected_uuid := "u1";
          ExistingInfrastructureSelected_infrastructureProvider :=
            InfrastructureProvider.AWS |}]
  /\ payload_infrastructureProvider
       (EvExistingInfrastructureSelected
          {| ExistingInfrastructureSelected_uuid := "u1";
             ExistingInfrastructureSelected_infrastructureProvider :=
               InfrastructureProvider.AWS |})
     = Some InfrastructureProvider.AWS
  /\ payload_region
       (EvExistingInfrastructureSelected
          {| ExistingInfrastructureSelected_uuid := "u1";
             ExistingInfrastructureSelected_infrastructureProvider :=
               InfrastructureProvider.AWS |})
     = None.
Proof. repeat split. Qed.

(** ** Reconstruction from a persisted row *)

(** The reducer draft maps a row to the snapshot that the other two drafts
    wrap. *)
Lemma mapNewState_wrapped
  (member_truthy : InfrastructureProvider.t -> bool) (d : DbState.t) :
  snapshot (Functional.entity (Functional.mapDbState member_truthy d))
  = PocReducer.mapNewState member_truthy d
  /\ snapshot (Interface.entity (Interface.mapDbState member_truthy d))
     = PocReducer.mapNewState member_truthy d.
Proof.
  destruct d as [u [] [] [p|]]; cbn; try destruct (member_truthy p);
    split; reflexivity.
Qed.

(** C5, as the code has it: the mapping functions are total and follow the
    reconstruction table row by row, where a selected infrastructure counts
    only if the row names a provider, that is, if [infrastructureProvider]
    is present and truthy.  New and NotSelected give the New variant; New and
    Selected with a provider give NotActivated; Active and Selected with a
    provider give Active; Deleted gives Deleted when it is NotSelected or
    Selected with a provider.  Every other row gives the Corrupted variant:
    Active and NotSelected, Corrupted, and every Selected row without a
    provider, the Deleted one too.  The snapshot that is wrapped has the uuid
    and the fields of the row, and that of the Corrupted variant has the
    uuid of the row, status [Corrupted] and no infrastructure. *)
Theorem mapDbState_follows_table
  (member_truthy : InfrastructureProvider.t -> bool) (d : DbState.t) :
  let u := DbState.uuid d in
  let st := DbState.status d in
  let ist := DbState.infrastructureStatus d in
  let provider := DbState.infrastructureProvider d in
  let corrupted :=
    {| uuid := u; status := AppStatus.Corrupted; infrastructure := None |} in
  (st = AppStatus.New -> ist = InfrastructureStatus.NotSelected ->
   reconstructs member_truthy d VNew
     {| uuid := u; status := AppStatus.New;
        infrastructure := Some NotSelectedInfrastructure |})
  /\ (forall p,
        st = AppStatus.New -> ist = InfrastructureStatus.Selected ->
        provider = Some p -> member_truthy p = true ->
        reconstructs member_truthy d VNotActivated
          {| uuid := u; status := AppStatus.New;
             infrastructure := Some (SelectedInfrastructure p) |})
  /\ (forall p,
        st = AppStatus.Active -> ist = InfrastructureStatus.Selected ->
        provider = Some p -> member_truthy p = true ->
        reconstructs member_truthy d VActive
          {| uuid := u; status := AppStatus.Active;
             infrastructure := Some (SelectedInfrastructure p) |})
  /\ (st = AppStatus.Deleted -> ist = InfrastructureStatus.NotSelected ->
      reconstructs member_truthy d VDeleted
        {| uuid := u; status := AppStatus.Deleted;
           infrastructure := Some NotSelectedInfrastructure |})
  /\ (forall p,
        st = AppStatus.Deleted -> ist = InfrastructureStatus.Selected ->
        provider = Some p -> member_truthy p = true ->
        reconstructs member_truthy d VDeleted
          {| uuid := u; status := AppStatus.Deleted;
             infrastructure := Some (SelectedInfrastructure p) |})
  /\ (st = AppStatus.Active -> ist = InfrastructureStatus.NotSelected ->
      reconstructs member_truthy d VCorrupted corrupted)
  /\ (st = AppStatus.Corrupted ->
      reconstructs member_truthy d VCorrupted corrupted)
  /\ (ist = InfrastructureStatus.Selected ->
      provider = None \/ (exists p, provider = Some p /\ member_truthy p = false) ->
      reconstructs member_truthy d VCorrupted corrupted).
Proof.
  unfold reconstructs.
  destruct d as [u [] [] [q|]]; cbn;
    repeat apply conj; intros;
    repeat match goal with
           | H : Some _ = Some _ |- _ => injection H as H; subst
           | H : _ \/ _ |- _ => destruct H as [H | [? [H ?]]]
           end;
    try discriminate;
    repeat match goal with
           | H : member_truthy _ = _ |- _ => rewrite H; clear H
           end;
    try destruct (member_truthy q);
    repeat apply conj; reflexivity.
Qed.

Lemma mapDbState_follows_table_witness :
  reconstructs (fun _ => true)
    (DbState.mk "u1" AppStatus.New InfrastructureStatus.Selected
       (Some InfrastructureProvider.AWS))
    VNotActivated
    {| uuid := "u1"; status := AppStatus.New;
       infrastructure := Some (SelectedInfrastructure InfrastructureProvider.AWS) |}
  /\ reconstructs (fun _ => true)
       (DbState.mk "u1" AppStatus.Active InfrastructureStatus.NotSelected None)
       VCorrupted
       {| uuid := "u1"; status := AppStatus.Corrupted; infrastructure := None |}
  /\ reconstructs (fun _ => true)
       (DbState.mk "u1" AppStatus.Deleted InfrastructureStatus.Selected None)
       VCorrupted
       {| uuid := "u1"; status := AppStatus.Corrupted; infrastructure := None |}.
Proof.
  split; [| split].
  - refine (proj1 (proj2 (mapDbState_follows_table (fun _ => true)
              (DbState.mk "u1" AppStatus.New InfrastructureStatus.Selected
                 (Some InfrastructureProvider.AWS))))
              InfrastructureProvider.AWS _ _ _ _); reflexivity.
  - refine (proj1 (proj2 (proj2 (proj2 (proj2 (proj2
              (mapDbState_follows_table (fun _ => true)
                 (DbState.mk "u1" AppStatus.Active
                    InfrastructureStatus.NotSelected None)))))))
              _ _); reflexivity.
  - refine (proj2 (proj2 (proj2 (proj2 (proj2 (proj2 (proj2
              (mapDbState_follows_table (fun _ => true)
                 (DbState.mk "u1" AppStatus.Deleted
                    InfrastructureStatus.Selected None))))))))
              _ _); [reflexivity | left; reflexivity].
Defined.

(** C5, as the claim has it, fails: a row with status Deleted that says
    Selected and names no provider is in the Deleted line of the table, and
    the mapping functions make the Corrupted variant of it. *)
Lemma mapDbState_Deleted_row_to_Corrupted :
  fromPersisted_spec
    (DbState.mk "u1" AppStatus.Deleted InfrastructureStatus.Selected None)
  = VDeleted
  /\ Functional.variant
       (Functional.mapDbState (fun _ => true)
          (DbState.mk "u1" AppStatus.Deleted InfrastructureStatus.Selected None))
     = VCorrupted
  /\ snapshot
       (Functional.entity
          (Functional.mapDbState (fun _ => true)
             (DbState.mk "u1" AppStatus.Deleted InfrastructureStatus.Selected None)))
     = {| uuid := "u1"; status := AppStatus.Corrupted; infrastructure := None |}
  /\ PocReducer.mapNewState (fun _ => true)
       (DbState.mk "u1" AppStatus.Deleted InfrastructureStatus.Selected None)
     = {| uuid := "u1"; status := AppStatus.Corrupted; infrastructure := None |}.
Proof. repeat split. Qed.

(** Scenario 5: an [Active] row without infrastructure is mapped to the
    Corrupted variant, which keeps the uuid only. *)
Example scenario_5 :
  Functional.mapDbState (fun _ => true)
    (DbState.mk "u1" AppStatus.Active InfrastructureStatus.NotSelected None)
  = Functional.App_Corrupted
      {| Functional.Corrupted_entity :=
           {| snapshot := {| uuid := "u1"; status := AppStatus.Corrupted;
                             infrastructure := None |};
              dispatchedEvents := [] |} |}.
Proof. reflexivity. Qed.

(** Outside the persisted layout: a row that says Selected and names no
    provider is mapped to the Corrupted variant, also when it is Deleted. *)
Lemma mapDbState_without_provider
  (member_truthy : InfrastructureProvider.t -> bool) (d : DbState.t) :
  DbState.infrastructureStatus d = InfrastructureStatus.Selected ->
  DbState.infrastructureProvider d = None ->
  Functional.variant (Functional.mapDbState member_truthy d) = VCorrupted
  /\ Interface.variant (Interface.mapDbState member_truthy d) = VCorrupted
  /\ PocReducer.mapNewState member_truthy d = corrupted_row d.
Proof.
  destruct d as [u [] [] q]; cbn; intros Hs Hp; subst;
    try discriminate; repeat split.
Qed.

(** Were a member falsy (the first member of a numeric enum), a row that
    selects it would be mapped to the Corrupted variant. *)
Lemma mapDbState_falsy_member (d : DbState.t) (p : InfrastructureProvider.t) :
  DbState.infrastructureStatus d = InfrastructureStatus.Selected ->
  DbState.infrastructureProvider d = Some p ->
  Functional.variant (Functional.mapDbState (fun _ => false) d) = VCorrupted.
Proof.
  destruct d as [u [] [] q]; cbn; intros Hs Hp; subst; try discriminate; reflexivity.
Qed.

(** ** The invariant *)

Lemma apply_keeps_shape (s s' : State) (e : AppDomainEvent) :
  Functional.apply s e = Ok s' ->
  (invariant s -> invariant s')
  /\ (infrastructure s <> None -> infrastructure s' <> None).
Proof.
  unfold invariant.
  by_fields s; destruct e; cbn; intros H; inversion H; subst; cbn;
    split; intros Hi; try discriminate; try assumption;
    try (intros _; eexists; reflexivity).
Qed.

Lemma apply_returns (s : State) (e : AppDomainEvent) :
  declares_infrastructure s ->
  exists s', Functional.apply s e = Ok s' /\ declares_infrastructure s'.
Proof.
  intros H. unfold declares_infrastructure.
  by_fields s; destruct e; cbn; try absurd_shape;
    eexists; (split; [reflexivity |]); cbn;
    solve [ left; reflexivity | right; discriminate ].
Qed.

Lemma mapNewState_invariant
  (member_truthy : InfrastructureProvider.t -> bool) (d : DbState.t) :
  invariant (PocReducer.mapNewState member_truthy d).
Proof.
  unfold invariant.
  destruct d as [u [] [] [p|]]; cbn; try destruct (member_truthy p); cbn;
    intros H; try discriminate; eexists; reflexivity.
Qed.

(** C8: [apply] returns on every snapshot that has the fields of its type,
    and the snapshot it returns satisfies the invariant whenever the one it
    was given does; every variant that [mapDbState] returns wraps a snapshot
    that satisfies the invariant. *)
Theorem invariant_preserved
  (member_truthy : InfrastructureProvider.t -> bool) (d : DbState.t)
  (s : State) (e : AppDomainEvent) :
  invariant (snapshot (Functional.entity (Functional.mapDbState member_truthy d)))
  /\ (invariant s ->
      declares_infrastructure s ->
      exists s', Functional.apply s e = Ok s'
                 /\ invariant s' /\ declares_infrastructure s').
Proof.
  split.
  - rewrite (proj1 (mapNewState_wrapped member_truthy d)).
    apply mapNewState_invariant.
  - intros Hi Hd.
    destruct (apply_returns s e Hd) as [s' [Hs' Hd']].
    exists s'. repeat split; try assumption.
    now apply (proj1 (apply_keeps_shape s s' e Hs')).
Qed.

Lemma invariant_preserved_witness :
  exists s',
    Functional.apply
      {| uuid := "u1"; status := AppStatus.New;
         infrastructure := Some (SelectedInfrastructure InfrastructureProvider.AZURE) |}
      (EvAppActivated {| AppActivated_uuid := "u1" |}) = Ok s'
    /\ invariant s' /\ declares_infrastructure s'.
Proof.
  refine (proj2 (invariant_preserved (fun _ => true)
                   (DbState.mk "u1" AppStatus.New InfrastructureStatus.NotSelected None)
                   _ _) _ _).
  - intros H. discriminate H.
  - right. discriminate.
Defined.

(** ** Round trip through the persisted row *)

Lemma reachable_shape (s : State) :
  reachable s -> invariant s /\ infrastructure s <> None.
Proof.
  induction 1 as [u | s s' e _ [IHi IHn] Happly].
  - split; [intros H; discriminate H | discriminate].
  - destruct (apply_keeps_shape s s' e Happly) as [Hi Hn]. auto.
Qed.





(** ** What the reducers keep *)



(** Under [apply] the status only moves forward in the order New, Active,
    Deleted, Corrupted. *)
Theorem apply_status_never_goes_back (s : State) (e : AppDomainEvent) :
  declares_infrastructure s ->
  exists s', Functional.apply s e = Ok s'
             /\ AppStatus_rank (status s) <= AppStatus_rank (status s').
Proof.
  intros H.
  by_fields s; destruct e; cbn; try absurd_shape;
    eexists; (split; [reflexivity |]); cbn; repeat constructor.
Qed.

Lemma apply_status_never_goes_back_witness :
  exists s',
    Functional.apply
      {| uuid := "u1"; status := AppStatus.Deleted;
         infrastructure := Some NotSelectedInfrastructure |}
      (EvAppActivated {| AppActivated_uuid := "u1" |}) = Ok s'
    /\ 2 <= AppStatus_rank (status s').
Proof.
  refine (apply_status_never_goes_back
            {| uuid := "u1"; status := AppStatus.Deleted;
               infrastructure := Some NotSelectedInfrastructure |} _ _).
  right. discriminate.
Defined.

(** Once an infrastructure is selected, no event changes it under [apply]:
    a second selection corrupts the snapshot and keeps the first provider. *)
Theorem apply_keeps_selected_infrastructure
  (s : State) (e : AppDomainEvent) (p : InfrastructureProvider.t) :
  infrastructure s = Some (SelectedInfrastructure p) ->
  exists s', Functional.apply s e = Ok s'
             /\ infrastructure s' = Some (SelectedInfrastructure p).
Proof.
  intros H. destruct s as [u [] i]; cbn in H; subst i;
    destruct e; cbn; eexists; split; reflexivity.
Qed.

Lemma apply_keeps_selected_infrastructure_witness :
  exists s',
    Functional.apply
      {| uuid := "u1"; status := AppStatus.New;
         infrastructure := Some (SelectedInfrastructure InfrastructureProvider.AZURE) |}
      (EvExistingInfrastructureSelected
         {| ExistingInfrastructureSelected_uuid := "u1";
            ExistingInfrastructureSelected_infrastructureProvider :=
              InfrastructureProvider.AWS |}) = Ok s'
    /\ infrastructure s' = Some (SelectedInfrastructure InfrastructureProvider.AZURE).
Proof.
  refine (apply_keeps_selected_infrastructure _ _ _ _). reflexivity.
Defined.

(** The snapshots that histories lead to under [apply] are exactly those
    that have an infrastructure and satisfy the invariant: every status, with
    either infrastructure, but for Active without a selection. *)
Theorem reachable_iff (s : State) :
  reachable s <-> (infrastructure s <> None /\ invariant s).
Proof.
  split.
  - intros H. destruct (reachable_shape s H). auto.
  - intros [Hn Hi]. unfold invariant in Hi.
    pose (sel := fun p =>
      EvExistingInfrastructureSelected
        {| ExistingInfrastructureSelected_uuid := uuid s;
           ExistingInfrastructureSelected_infrastructureProvider := p |}).
    pose (act := EvAppActivated {| AppActivated_uuid := uuid s |}).
    pose (del := EvAppDeleted {| AppDeleted_uuid := uuid s |}).
    assert (Hsel : forall p,
               reachable {| uuid := uuid s; status := AppStatus.New;
                            infrastructure := Some (SelectedInfrastructure p) |}).
    { intros p.
      apply reachable_apply with (s := created (uuid s)) (e := sel p);
        [apply reachable_created | reflexivity]. }
    by_fields s; try (now destruct Hn).
    + apply reachable_created.
    + apply Hsel.
    + destruct (Hi eq_refl) as [q Hq]. discriminate Hq.
    + eapply reachable_apply with (e := act); [apply (Hsel p) | reflexivity].
    + eapply reachable_apply with (e := del); [apply reachable_created | reflexivity].
    + eapply reachable_apply with (e := del); [apply (Hsel p) | reflexivity].
    + eapply reachable_apply with (e := act); [apply reachable_created | reflexivity].
    + eapply reachable_apply with (e := sel p); [apply (Hsel p) | reflexivity].
Qed.

Lemma reachable_iff_witness :
  reachable
    {| uuid := "u1"; status := AppStatus.Deleted;
       infrastructure := Some (SelectedInfrastructure InfrastructureProvider.AWS) |}.
Proof.
  refine (proj2 (reachable_iff _) (conj _ _)).
  - discriminate.
  - intros H. discriminate H.
Defined.

(** The two reducers give the same result on every snapshot for a
    selection, an activation and a build request.  They differ on
    [AppDeleted] unless the snapshot is [Corrupted], and on [AppCreated]
    unless the snapshot is the created one of the event. *)
Theorem reduce_agrees_with_apply (s : State) (e : AppDomainEvent) :
  match e with
  | EvAppCreated c =>
      PocReducer.reduce s e = Functional.apply s e <-> s = created (AppCreated_uuid c)
  | EvAppDeleted _ =>
      PocReducer.reduce s e = Functional.apply s e <-> status s = AppStatus.Corrupted
  | _ => PocReducer.reduce s e = Functional.apply s e
  end.
Proof.
  destruct e as [c|a|a|a|a]; try reflexivity.
  - cbn. split; intros H; [now inversion H | now subst].
  - by_fields s; split; intros H; try reflexivity; discriminate H.
Qed.

Lemma reduce_agrees_with_apply_witness :
  PocReducer.reduce
    {| uuid := "u1"; status := AppStatus.Corrupted; infrastructure := None |}
    (EvAppDeleted {| AppDeleted_uuid := "u1" |})
  = Functional.apply
      {| uuid := "u1"; status := AppStatus.Corrupted; infrastructure := None |}
      (EvAppDeleted {| AppDeleted_uuid := "u1" |}).
Proof.
  refine (proj2 (reduce_agrees_with_apply
                   {| uuid := "u1"; status := AppStatus.Corrupted;
                      infrastructure := None |}
                   (EvAppDeleted {| AppDeleted_uuid := "u1" |})) _).
  reflexivity.
Defined.

(** [reduce] returns on every snapshot that has the fields of its type, and
    keeps the invariant. *)
Theorem reduce_keeps_invariant (s : State) (e : AppDomainEvent) :
  invariant s ->
  declares_infrastructure s ->
  exists s', PocReducer.reduce s e = Ok s'
             /\ invariant s' /\ declares_infrastructure s'.
Proof.
  unfold invariant. intros Hi Hd. unfold declares_infrastructure.
  by_fields s; destruct e; cbn; try absurd_shape;
    eexists; (split; [reflexivity |]); cbn;
    (split; [ intros H; try discriminate H; try (eexists; reflexivity);
              destruct (Hi eq_refl) as [q Hq]; discriminate Hq
            | solve [ left; reflexivity | right; discriminate ] ]).
Qed.

Lemma reduce_keeps_invariant_witness :
  exists s',
    PocReducer.reduce
      {| uuid := "u1"; status := AppStatus.New;
         infrastructure := Some (SelectedInfrastructure InfrastructureProvider.AWS) |}
      (EvAppActivated {| AppActivated_uuid := "u1" |}) = Ok s'
    /\ invariant s' /\ declares_infrastructure s'.
Proof.
  refine (reduce_keeps_invariant _ _ _ _).
  - intros H. discriminate H.
  - right. discriminate.
Defined.

(** [reduce] deletes nothing: a snapshot that is not [Deleted] is not taken
    to [Deleted] by any event. *)
Theorem reduce_never_deletes (s : State) (e : AppDomainEvent) :
  status s <> AppStatus.Deleted ->
  declares_infrastructure s ->
  exists s', PocReducer.reduce s e = Ok s' /\ status s' <> AppStatus.Deleted.
Proof.
  intros Hs Hd.
  by_fields s; destruct e; cbn; try absurd_shape; try (now destruct Hs);
    eexists; (split; [reflexivity |]); cbn; discriminate.
Qed.

Lemma reduce_never_deletes_witness :
  exists s',
    PocReducer.reduce
      {| uuid := "u1"; status := AppStatus.Active;
         infrastructure := Some (SelectedInfrastructure InfrastructureProvider.AWS) |}
      (EvAppDeleted {| AppDeleted_uuid := "u1" |}) = Ok s'
    /\ status s' <> AppStatus.Deleted.
Proof.
  refine (reduce_never_deletes _ _ _ _).
  - discriminate.
  - right. discriminate.
Defined.

(** ** What the mapping functions keep *)

(** [mapNewState] invents nothing: it returns either the state with the
    uuid of the row, status [Corrupted] and no infrastructure, or a state
    with the uuid and the status of the row, which is then not [Corrupted],
    and an infrastructure with the status and, where it has one, the provider
    of the row.  This holds whatever the row and whatever the truthiness of
    the enum members. *)
Theorem mapNewState_conservative
  (member_truthy : InfrastructureProvider.t -> bool) (d : DbState.t) :
  PocReducer.mapNewState member_truthy d
  = {| uuid := DbState.uuid d; status := AppStatus.Corrupted; infrastructure := None |}
  \/ (DbState.status d <> AppStatus.Corrupted
      /\ exists i,
           PocReducer.mapNewState member_truthy d
           = {| uuid := DbState.uuid d; status := DbState.status d;
                infrastructure := Some i |}
           /\ Infrastructure_status i = DbState.infrastructureStatus d
           /\ forall p, Infrastructure_type i = Some p ->
                        DbState.infrastructureProvider d = Some p).
Proof.
  destruct d as [u [] [] [q|]]; cbn; try destruct (member_truthy q);
    try (left; reflexivity);
    right; (split; [discriminate |]); eexists; (split; [reflexivity |]);
    (split; [reflexivity |]); cbn; intros p; congruence.
Qed.

(** An [Active] row without a selection comes back as the corrupted state,
    and an [Active] row on AZURE keeps its provider. *)
Lemma mapNewState_conservative_witness :
  PocReducer.mapNewState (fun _ => true)
    (DbState.mk "u1" AppStatus.Active InfrastructureStatus.NotSelected None)
  = {| uuid := "u1"; status := AppStatus.Corrupted; infrastructure := None |}
  /\ DbState.infrastructureProvider
       (DbState.mk "u1" AppStatus.Active InfrastructureStatus.Selected
          (Some InfrastructureProvider.AZURE))
     = Some InfrastructureProvider.AZURE.
Proof.
  split.
  - destruct (mapNewState_conservative (fun _ => true)
                (DbState.mk "u1" AppStatus.Active
                   InfrastructureStatus.NotSelected None))
      as [H | [_ [i [Hm _]]]].
    + exact H.
    + discriminate Hm.
  - destruct (mapNewState_conservative (fun _ => true)
                (DbState.mk "u1" AppStatus.Active InfrastructureStatus.Selected
                   (Some InfrastructureProvider.AZURE)))
      as [H | [_ [i [Hm [_ Hp]]]]].
    + discriminate H.
    + apply Hp. cbn in Hm. injection Hm as <-. reflexivity.
Defined.

(** The variant that [mapDbState] builds fixes the fields of the snapshot
    it wraps, in both typestate drafts, whatever the row and the truthiness
    of the enum members: New wraps status [New] without a selection,
    NotActivated status [New] with a provider, Active status [Active] with a
    provider, Deleted status [Deleted] with an infrastructure, and Corrupted
    status [Corrupted] without infrastructure.  The uuid is that of the
    row. *)
Theorem mapDbState_variant_of_snapshot
  (member_truthy : InfrastructureProvider.t -> bool) (d : DbState.t) :
  let shaped (v : Variant) (s : State) : Prop :=
    uuid s = DbState.uuid d
    /\ match v with
       | VNew =>
           status s = AppStatus.New
           /\ infrastructure s = Some NotSelectedInfrastructure
       | VNotActivated =>
           status s = AppStatus.New
           /\ exists p, infrastructure s = Some (SelectedInfrastructure p)
       | VActive =>
           status s = AppStatus.Active
           /\ exists p, infrastructure s = Some (SelectedInfrastructure p)
       | VDeleted =>
           status s = AppStatus.Deleted
           /\ exists i, infrastructure s = Some i
       | VCorrupted =>
           status s = AppStatus.Corrupted /\ infrastructure s = None
       end in
  shaped (Functional.variant (Functional.mapDbState member_truthy d))
    (snapshot (Functional.entity (Functional.mapDbState member_truthy d)))
  /\ shaped (Interface.variant (Interface.mapDbState member_truthy d))
       (snapshot (Interface.entity (Interface.mapDbState member_truthy d))).
Proof.
  destruct d as [u [] [] [q|]]; cbn; try destruct (member_truthy q); cbn;
    repeat split; eexists; reflexivity.
Qed.

(** [isNew] returns on every object that [mapDbState] builds, also on the
    Corrupted one, which has no infrastructure; it answers [true] on the New
    variant and on no other. *)
Theorem isNew_of_mapDbState
  (member_truthy : InfrastructureProvider.t -> bool) (d : DbState.t) :
  Functional.isNew (Functional.mapDbState member_truthy d)
  = Ok (match Functional.variant (Functional.mapDbState member_truthy d) with
        | VNew => true
        | _ => false
        end)
  /\ Interface.isNew (Interface.mapDbState member_truthy d)
     = Ok (match Interface.variant (Interface.mapDbState member_truthy d) with
           | VNew => true
           | _ => false
           end).
Proof.
  destruct d as [u [] [] [q|]]; cbn; try destruct (member_truthy q);
    split; reflexivity.
Qed.

(** ** The typestate operations of the interface draft *)

(** Each operation takes a snapshot of the state type of its variant to a
    snapshot of the state type of the variant it returns. *)
Theorem Interface_operations_well_typed
  (state : Entity) (type : InfrastructureProvider.t) :
  (State_variant (snapshot state) = VNew ->
   State_variant
     (snapshot (Interface.NotActivated_entity
                  (Interface.New_selectInfrastructure (Interface.buildNew state) type)))
   = VNotActivated
   /\ State_variant
        (snapshot (Interface.Deleted_entity
                     (Interface.New_delete (Interface.buildNew state) tt)))
      = VDeleted)
  /\ (State_variant (snapshot state) = VNotActivated ->
      State_variant
        (snapshot (Interface.Active_entity
                     (Interface.NotActivated_activate
                        (Interface.buildNotActivated state) tt)))
      = VActive
      /\ State_variant
           (snapshot (Interface.Deleted_entity
                        (Interface.NotActivated_delete
                           (Interface.buildNotActivated state) tt)))
         = VDeleted)
  /\ (State_variant (snapshot state) = VActive ->
      State_variant
        (snapshot (Interface.Deleted_entity
                     (Interface.Active_delete (Interface.buildActive state) tt)))
      = VDeleted).
Proof.
  destruct state as [s evs]. unfold State_variant.
  by_fields s; (split; [| split]); intros H; try discriminate H; split; reflexivity.
Qed.

Lemma Interface_operations_well_typed_witness :
  State_variant
    (snapshot (Interface.NotActivated_entity
                 (Interface.New_selectInfrastructure
                    (Interface.buildNew (loaded (created "u1")))
                    InfrastructureProvider.AWS)))
  = VNotActivated.
Proof.
  refine (proj1 (proj1 (Interface_operations_well_typed
                          (loaded (created "u1")) InfrastructureProvider.AWS) _)).
  reflexivity.
Defined.

(** Each operation is a step of the reducer: the variant it returns carries
    one event, with the uuid of the entity, and [apply] takes the snapshot
    before the operation to the snapshot after it on that event. *)
Theorem Interface_operations_replay
  (state : Entity) (type : InfrastructureProvider.t) :
  (State_variant (snapshot state) = VNew ->
   replays (snapshot state)
     (Interface.NotActivated_entity
        (Interface.New_selectInfrastructure (Interface.buildNew state) type))
   /\ replays (snapshot state)
        (Interface.Deleted_entity (Interface.New_delete (Interface.buildNew state) tt)))
  /\ (State_variant (snapshot state) = VNotActivated ->
      replays (snapshot state)
        (Interface.Active_entity
           (Interface.NotActivated_activate (Interface.buildNotActivated state) tt))
      /\ replays (snapshot state)
           (Interface.Deleted_entity
              (Interface.NotActivated_delete (Interface.buildNotActivated state) tt)))
  /\ (State_variant (snapshot state) = VActive ->
      replays (snapshot state)
        (Interface.Deleted_entity
           (Interface.Active_delete (Interface.buildActive state) tt))).
Proof.
  destruct state as [s evs]. unfold State_variant, replays.
  by_fields s; (split; [| split]); intros H; try discriminate H;
    try split; eexists; repeat split.
Qed.

Lemma Interface_operations_replay_witness :
  replays
    {| uuid := "u1"; status := AppStatus.Active;
       infrastructure := Some (SelectedInfrastructure InfrastructureProvider.AWS) |}
    (Interface.Deleted_entity
       (Interface.Active_delete
          (Interface.buildActive
             (loaded {| uuid := "u1"; status := AppStatus.Active;
                        infrastructure :=
                          Some (SelectedInfrastructure InfrastructureProvider.AWS) |}))
          tt)).
Proof.
  refine (proj2 (proj2 (Interface_operations_replay
            (loaded {| uuid := "u1"; status := AppStatus.Active;
                       infrastructure :=
                         Some (SelectedInfrastructure InfrastructureProvider.AWS) |})
            InfrastructureProvider.AWS)) _).
  reflexivity.
Defined.

(** An operation does not append to the events of the entity it is called
    on: of the chain select, activate, delete the result carries the last
    event alone, on a [Deleted] snapshot with the selected provider. *)
Theorem Interface_chain_keeps_last_event
  (state : Entity) (type : InfrastructureProvider.t) :
  Interface.Deleted_entity
    (Interface.Active_delete
       (Interface.NotActivated_activate
          (Interface.New_selectInfrastructure (Interface.buildNew state) type) tt) tt)
  = {| snapshot :=
         {| uuid := uuid (snapshot state); status := AppStatus.Deleted;
            infrastructure := Some (SelectedInfrastructure type) |};
       dispatchedEvents :=
         [EvAppDeleted {| AppDeleted_uuid := uuid (snapshot state) |}] |}.
Proof. reflexivity. Qed.

(** The callback of [test], called on what [mapDbState] builds from a row:
    on a row that is New without a selection it returns the Deleted variant
    on AWS, with the uuid of the row and the one event [AppDeleted]; on every
    other row it throws.  [withAppContext] returns or throws with it. *)
Theorem Interface_test_callback_of_row
  (member_truthy : InfrastructureProvider.t -> bool) (d : DbState.t) :
  let app := Interface.mapDbState member_truthy d in
  (if AppStatus.eqb (DbState.status d) AppStatus.New
      && InfrastructureStatus.eqb (DbState.infrastructureStatus d)
           InfrastructureStatus.NotSelected
   then
     Interface.test_callback app
     = Ok (Interface.App_Deleted
             (Interface.buildDeleted
                {| snapshot :=
                     {| uuid := DbState.uuid d; status := AppStatus.Deleted;
                        infrastructure :=
                          Some (SelectedInfrastructure InfrastructureProvider.AWS) |};
                   dispatchedEvents :=
                     [EvAppDeleted {| AppDeleted_uuid := DbState.uuid d |}] |}))
     /\ Interface.withAppContext app Interface.test_callback = Ok tt
   else
     Interface.test_callback app = Throw (Error EmptyString)
     /\ Interface.withAppContext app Interface.test_callback
        = Throw (Error EmptyString)).
Proof.
  destruct d as [u [] [] [q|]]; cbn; try destruct (member_truthy q);
    split; reflexivity.
Qed.

(** In the functional draft the same callback throws on every row: the
    guard rejects what is not the New variant, and on the New variant the
    first operation runs into [checkInvariants]. *)
Theorem Functional_test_callback_of_row
  (member_truthy : InfrastructureProvider.t -> bool) (d : DbState.t) :
  Functional.test_callback (Functional.mapDbState member_truthy d)
  = Throw (Error
             (if AppStatus.eqb (DbState.status d) AppStatus.New
                 && InfrastructureStatus.eqb (DbState.infrastructureStatus d)
                      InfrastructureStatus.NotSelected
              then "Not implemented" else EmptyString)).
Proof.
  destruct d as [u [] [] [q|]]; cbn; try destruct (member_truthy q); reflexivity.
Qed.

(** ** The capabilities of the reducer draft *)

(** Which guards of [buildInterface] pass is decided by the state type that
    the state inhabits: [isNew], [isNotActivated] and [isActive] pass on
    their own type alone and throw otherwise, [isNotDeleted] passes where one
    of the three does and hands out that capability, and [isDeleted] passes
    on every state, deleted or not. *)
Theorem buildInterface_guards
  (R : Type) (s : State) (dispatch : AppDomainEvent -> R) :
  declares_infrastructure s ->
  let appInterface := PocReducer.buildInterface s dispatch in
  let thrown {A : Type} : result A := Throw (Error EmptyString) in
  PocReducer.isDeleted appInterface tt = Ok tt
  /\ match State_variant s with
     | VNew =>
         PocReducer.isNew appInterface tt
         = Ok (PocReducer.buildNewInterface s dispatch)
         /\ PocReducer.isNotActivated appInterface tt = thrown
         /\ PocReducer.isActive appInterface tt = thrown
         /\ PocReducer.isNotDeleted appInterface tt
            = Ok (PocReducer.NotDeleted_New (PocReducer.buildNewInterface s dispatch))
     | VNotActivated =>
         PocReducer.isNew appInterface tt = thrown
         /\ PocReducer.isNotActivated appInterface tt
            = Ok (PocReducer.buildNotActivatedInterface s dispatch)
         /\ PocReducer.isActive appInterface tt = thrown
         /\ PocReducer.isNotDeleted appInterface tt
            = Ok (PocReducer.NotDeleted_NotActivated
                    (PocReducer.buildNotActivatedInterface s dispatch))
     | VActive =>
         PocReducer.isNew appInterface tt = thrown
         /\ PocReducer.isNotActivated appInterface tt = thrown
         /\ PocReducer.isActive appInterface tt
            = Ok (PocReducer.buildActiveInterface s dispatch)
         /\ PocReducer.isNotDeleted appInterface tt
            = Ok (PocReducer.NotDeleted_Active
                    (PocReducer.buildActiveInterface s dispatch))
     | VDeleted | VCorrupted =>
         PocReducer.isNew appInterface tt = thrown
         /\ PocReducer.isNotActivated appInterface tt = thrown
         /\ PocReducer.isActive appInterface tt = thrown
         /\ PocReducer.isNotDeleted appInterface tt = thrown
     end.
Proof.
  intros H. cbn zeta. split; [reflexivity |].
  unfold State_variant.
  by_fields s; try absurd_shape; repeat split.
Qed.

Lemma buildInterface_guards_witness :
  PocReducer.isNotDeleted
    (PocReducer.buildInterface
       {| uuid := "u1"; status := AppStatus.Deleted;
          infrastructure := Some NotSelectedInfrastructure |}
       (fun e : AppDomainEvent => e)) tt
  = Throw (Error EmptyString).
Proof.
  refine (proj2 (proj2 (proj2 (proj2 (buildInterface_guards AppDomainEvent
            {| uuid := "u1"; status := AppStatus.Deleted;
               infrastructure := Some NotSelectedInfrastructure |}
            (fun e => e) _))))).
  right. discriminate.
Defined.

(** With a dispatch that reduces the state, a selection or an activation
    that passes its guard is legal for [reduce]: the selection returns the
    state with its uuid and status and the selected provider, the activation
    the state with its uuid and infrastructure and status [Active], never a
    [Corrupted] one; where the guard does not pass nothing is dispatched. *)
Theorem guarded_dispatch_is_legal (s : State) (type : InfrastructureProvider.t) :
  declares_infrastructure s ->
  let appInterface := PocReducer.buildInterface s (PocReducer.reduce s) in
  (i <- PocReducer.isNew appInterface tt ;;
   PocReducer.selectInfrastructure (PocReducer.NewInterface_infrastructure i) type)
  = match State_variant s with
    | VNew =>
        Ok {| uuid := uuid s; status := AppStatus.New;
              infrastructure := Some (SelectedInfrastructure type) |}
    | _ => Throw (Error EmptyString)
    end
  /\ (i <- PocReducer.isNotActivated appInterface tt ;;
      PocReducer.NotActivatedInterface_activate i tt)
     = match State_variant s with
       | VNotActivated =>
           Ok {| uuid := uuid s; status := AppStatus.Active;
                 infrastructure := infrastructure s |}
       | _ => Throw (Error EmptyString)
       end.
Proof.
  intros H. cbn zeta. unfold State_variant.
  by_fields s; try absurd_shape; split; reflexivity.
Qed.

Lemma guarded_dispatch_is_legal_witness :
  (i <- PocReducer.isNew
          (PocReducer.buildInterface (created "u1")
             (PocReducer.reduce (created "u1"))) tt ;;
   PocReducer.selectInfrastructure (PocReducer.NewInterface_infrastructure i)
     InfrastructureProvider.AZURE)
  = Ok {| uuid := "u1"; status := AppStatus.New;
          infrastructure := Some (SelectedInfrastructure InfrastructureProvider.AZURE) |}
  /\ (i <- PocReducer.isNotActivated
             (PocReducer.buildInterface
                {| uuid := "u1"; status := AppStatus.New;
                   infrastructure :=
                     Some (SelectedInfrastructure InfrastructureProvider.AZURE) |}
                (PocReducer.reduce
                   {| uuid := "u1"; status := AppStatus.New;
                      infrastructure :=
                        Some (SelectedInfrastructure InfrastructureProvider.AZURE) |}))
             tt ;;
      PocReducer.NotActivatedInterface_activate i tt)
     = Ok {| uuid := "u1"; status := AppStatus.Active;
             infrastructure :=
               Some (SelectedInfrastructure InfrastructureProvider.AZURE) |}
  /\ (i <- PocReducer.isNotActivated
             (PocReducer.buildInterface (created "u1")
                (PocReducer.reduce (created "u1"))) tt ;;
      PocReducer.NotActivatedInterface_activate i tt)
     = Throw (Error EmptyString).
Proof.
  split; [| split].
  - refine (proj1 (guarded_dispatch_is_legal (created "u1")
                     InfrastructureProvider.AZURE _)).
    right. discriminate.
  - refine (proj2 (guarded_dispatch_is_legal
              {| uuid := "u1"; status := AppStatus.New;
                 infrastructure :=
                   Some (SelectedInfrastructure InfrastructureProvider.AZURE) |}
              InfrastructureProvider.AZURE _)).
    right. discriminate.
  - refine (proj2 (guarded_dispatch_is_legal (created "u1")
                     InfrastructureProvider.AZURE _)).
    right. discriminate.
Defined.

(** With the same dispatch, the one capability to delete corrupts: wherever
    [isNotDeleted] passes, the [AppDeleted] that [delete] dispatches takes
    the state to [Corrupted] under [reduce]. *)
Theorem guarded_delete_corrupts (s : State) :
  declares_infrastructure s ->
  (i <- PocReducer.isNotDeleted
          (PocReducer.buildInterface s (PocReducer.reduce s)) tt ;;
   PocReducer.NotDeleted_delete i tt)
  = match State_variant s with
    | VNew | VNotActivated | VActive => Ok (with_status s AppStatus.Corrupted)
    | VDeleted | VCorrupted => Throw (Error EmptyString)
    end.
Proof.
  intros H. unfold State_variant.
  by_fields s; try absurd_shape; reflexivity.
Qed.

Lemma guarded_delete_corrupts_witness :
  (i <- PocReducer.isNotDeleted
          (PocReducer.buildInterface
             {| uuid := "u1"; status := AppStatus.Active;
                infrastructure :=
                  Some (SelectedInfrastructure InfrastructureProvider.AWS) |}
             (PocReducer.reduce
                {| uuid := "u1"; status := AppStatus.Active;
                   infrastructure :=
                     Some (SelectedInfrastructure InfrastructureProvider.AWS) |})) tt ;;
   PocReducer.NotDeleted_delete i tt)
  = Ok {| uuid := "u1"; status := AppStatus.Corrupted;
          infrastructure := Some (SelectedInfrastructure InfrastructureProvider.AWS) |}.
Proof.
  refine (guarded_delete_corrupts
            {| uuid := "u1"; status := AppStatus.Active;
               infrastructure :=
                 Some (SelectedInfrastructure InfrastructureProvider.AWS) |} _).
  right. discriminate.
Defined.

(** ** The class Root *)

(** No method of [Root] completes.  Where the guard of the method does not
    pass, it throws; where it passes, the capability calls [dispatch]
    without a receiver and the read of [this._state] throws.  So no call
    changes the state. *)
Theorem Root_methods_throw (this : PocReducer.Root) (type : InfrastructureProvider.t) :
  declares_infrastructure (PocReducer.Root_state this) ->
  PocReducer.Root_selectInfrastructure this type
  = Throw (match State_variant (PocReducer.Root_state this) with
           | VNew => TypeError
           | _ => Error EmptyString
           end)
  /\ PocReducer.Root_activate this
     = Throw (match State_variant (PocReducer.Root_state this) with
              | VNotActivated => TypeError
              | _ => Error EmptyString
              end)
  /\ PocReducer.Root_delete this
     = Throw (match State_variant (PocReducer.Root_state this) with
              | VNew | VNotActivated | VActive => TypeError
              | VDeleted | VCorrupted => Error EmptyString
              end).
Proof.
  destruct this as [s]. cbn [PocReducer.Root_state]. intros H.
  unfold State_variant.
  by_fields s; try absurd_shape; repeat split.
Qed.

Lemma Root_methods_throw_witness :
  PocReducer.Root_selectInfrastructure
    {| PocReducer.Root_state := created "u1" |} InfrastructureProvider.AWS
  = Throw TypeError.
Proof.
  refine (proj1 (Root_methods_throw {| PocReducer.Root_state := created "u1" |}
                   InfrastructureProvider.AWS _)).
  right. discriminate.
Defined.

(** [test] throws on every row, at its first call: a [TypeError] on a row
    that is New without a selection, the guard's error on every other. *)
Theorem PocReducer_test_throws
  (member_truthy : InfrastructureProvider.t -> bool) (dbState : DbState.t) :
  PocReducer.test member_truthy dbState
  = Throw (if AppStatus.eqb (DbState.status dbState) AppStatus.New
              && InfrastructureStatus.eqb (DbState.infrastructureStatus dbState)
                   InfrastructureStatus.NotSelected
           then TypeError else Error EmptyString).
Proof.
  unfold PocReducer.test, PocReducer.Root_new, PocReducer.mapNewState.
  destruct dbState as [u [] [] [q|]]; cbn; try destruct (member_truthy q);
    reflexivity.
Qed.
